(** * XmmsSync: the synchronous proxy of xmmsclient/sync.py

    A shallow embedding of [src/clients/lib/python/xmmsclient/sync.py].

    The class [XmmsSync] wraps a client object of the [xmmsapi] library.
    Everything the proxy does is one of: a test on a Python object
    ([is None], [hasattr(attr, '__call__')], [isinstance(ret, XmmsResult)],
    [raise]), a read or write of its own [_xmms] slot, or a request to code
    that lives outside the file (the [xmmsapi] library, the objects it hands
    out).  The embedding keeps the three apart:

    - [value] is a Python object as far as the proxy can tell objects apart;
    - [ext_op] is a request to outside code; the library is a function
      [ext_op -> state -> outcome value * state] and every request is
      recorded, in order, in a log;
    - the methods of the class are written in a small state-and-exception
      monad [M] over the library state, the [_xmms] slot and the log. *)

From Stdlib Require Import String List Bool ZArith Permutation.
Import ListNotations.
Open Scope string_scope.
Open Scope list_scope.

(** ** Python objects *)

Inductive value : Type :=
| VNone                                    (* None *)
| VBool (b : bool)
| VInt (n : Z)
| VStr (s : string)
| VList (names : list string)              (* a list of str, as dir() yields *)
| VObj (oid : nat)                         (* any other object without __call__ *)
| VExc (oid : nat) (mro : list string) (msg : string)
                                           (* an exception instance handed out
                                              by the library; oid is its id(),
                                              mro the names of the classes of
                                              type(e).__mro__, its own first *)
| VBuiltinExc (cls msg : string)           (* an exception instance created by
                                              the interpreter itself, of the
                                              builtin class cls *)
| VResult (rid : nat)                      (* an instance of xmmsapi.XmmsResult *)
| VFunc (fid : nat)                        (* a callable of the library *)
| VSync (attr doc : value) (func_name : string).
                                           (* the closure [_] of __getattr__:
                                              captured attr, __doc__, func_name *)

(** [hasattr(v, '__call__')] *)
Definition has_call (v : value) : bool :=
  match v with
  | VFunc _ | VSync _ _ _ => true
  | _ => false
  end.

(** [v is None] *)
Definition is_None (v : value) : bool :=
  match v with VNone => true | _ => false end.

(** Truth value of an object, as [if v:] tests it. *)
Definition truthy (v : value) : bool :=
  match v with
  | VNone => false
  | VBool b => b
  | VInt n => negb (Z.eqb n 0)
  | VStr s => negb (String.eqb s "")
  | VList l => match l with [] => false | _ => true end
  | _ => true
  end.

(** An exception instance, the only kind of object [raise] raises as it is. *)
Definition is_exception (v : value) : bool :=
  match v with
  | VExc _ _ _ | VBuiltinExc _ _ => true
  | _ => false
  end.

(** What [except AttributeError:] catches: an instance of AttributeError or
    of a class derived from it, that is, one with AttributeError among the
    classes of its type.  The interpreter's own exceptions are of builtin
    classes, none of which derives from AttributeError. *)
Definition is_AttributeError (e : value) : bool :=
  match e with
  | VExc _ mro _ => existsb (String.eqb "AttributeError") mro
  | VBuiltinExc cls _ => String.eqb cls "AttributeError"
  | _ => false
  end.

(** ** Requests to code outside sync.py *)

Inductive ext_op : Type :=
| OpXmms (clientname : value)              (* xmmsapi.Xmms(clientname) *)
| OpBaseGetattr (name : string)            (* super(XmmsSync, self).__getattr__(name) *)
| OpGetattr (o : value) (name : string)    (* getattr(o, name) *)
| OpDir (o : value)                        (* the member listing of o that dir(o) sorts *)
| OpDoc (o : value)                        (* o.__doc__ *)
| OpCall (f : value) (args : list value) (kwargs : list (string * value))
                                           (* f( *args, **kwargs) *)
| OpWait (rid : nat)                       (* ret.wait() *)
| OpIsError (rid : nat)                    (* ret.is_error() *)
| OpGetError (rid : nat)                   (* ret.xvalue.get_error() *)
| OpValue (rid : nat).                     (* ret.value() *)

Inductive outcome (A : Type) : Type :=
| Return (a : A)
| Raise (e : value).                       (* e is the exception object in flight *)

Arguments Return {A} a.
Arguments Raise {A} e.

Definition is_call (op : ext_op) : bool :=
  match op with OpCall _ _ _ => true | _ => false end.

(** The requests made on a deferred result: wait, is_error, value and the
    error accessor. *)
Definition is_result_op (op : ext_op) : bool :=
  match op with
  | OpWait _ | OpIsError _ | OpGetError _ | OpValue _ => true
  | _ => false
  end.

(** ** Sorting of names, as dir() does *)

Fixpoint insert_name (x : string) (l : list string) : list string :=
  match l with
  | [] => [x]
  | y :: l' => if String.leb x y then x :: l else y :: insert_name x l'
  end.

Fixpoint py_sorted (l : list string) : list string :=
  match l with
  | [] => []
  | x :: l' => insert_name x (py_sorted l')
  end.

Fixpoint sorted_names (l : list string) : bool :=
  match l with
  | [] => true
  | x :: l' =>
      match l' with
      | [] => true
      | y :: _ => String.leb x y && sorted_names l'
      end
  end.

(** ** The proxy *)

Section XmmsSync.

(** State of the [xmmsapi] library and of the daemon behind it. *)
Variable state : Type.

(** The library: what each request returns or raises, and the state after. *)
Variable xmmsapi : ext_op -> state -> outcome value * state.

(** What ordinary attribute lookup finds for a name on the class XmmsSync,
    on its base xmmsapi.XmmsProxy and on object ([None]: nothing, so that
    the lookup goes on to [__getattr__]).  The instance's own [_xmms] is
    not in here, it is the slot [self_xmms] below. *)
Variable declared : string -> option value.

Record pystate : Type := mkpy {
  lib : state;                 (* state of the library *)
  self_xmms : option value;    (* self._xmms; None until the base __init__ ran *)
  log : list ext_op            (* requests made so far, oldest first *)
}.

Definition M (A : Type) : Type := pystate -> outcome A * pystate.

Definition ret {A} (a : A) : M A := fun s => (Return a, s).

Definition raise_exc {A} (e : value) : M A := fun s => (Raise e, s).

Definition bind {A B} (m : M A) (k : A -> M B) : M B :=
  fun s =>
    match m s with
    | (Return a, s') => k a s'
    | (Raise e, s') => (Raise e, s')
    end.

(** [try: body / except <catches>: handler]; an exception that is not
    caught goes on unchanged. *)
Definition try_except {A} (body : M A) (catches : value -> bool)
           (handler : M A) : M A :=
  fun s =>
    match body s with
    | (Return a, s') => (Return a, s')
    | (Raise e, s') => if catches e then handler s' else (Raise e, s')
    end.

(** [try: body / except: pass], for a body run for its effect only. *)
Definition try_pass {A} (body : M A) (default : A) : M A :=
  fun s =>
    match body s with
    | (Return a, s') => (Return a, s')
    | (Raise _, s') => (Return default, s')
    end.

Definition perform (op : ext_op) : M value :=
  fun s =>
    let (r, l') := xmmsapi op (lib s) in
    (r, {| lib := l'; self_xmms := self_xmms s; log := log s ++ [op] |}).

Notation "x <- m ;; k" := (bind m (fun x => k))
  (at level 100, m at next level, right associativity).

(** The statement [raise v]: an exception instance is raised as it is;
    anything else is a TypeError of the interpreter. *)
Definition py_raise {A} (v : value) : M A :=
  if is_exception v then raise_exc v
  else raise_exc (VBuiltinExc "TypeError" "exceptions must derive from BaseException").

(** [self._xmms].  On an instance whose base __init__ never ran the read
    falls into __getattr__, which reads self._xmms again; the model cuts
    that regress short with the RuntimeError it ends in when the base class
    has no [_xmms] to offer.  The theorems on attribute access, calls and
    [dir] are about constructed proxies, whose slot is set. *)
Definition get_xmms : M value :=
  fun s =>
    match self_xmms s with
    | Some x => (Return x, s)
    | None => (Raise (VBuiltinExc "RuntimeError" "maximum recursion depth exceeded"), s)
    end.

(** Modelled from the spec: xmmsapi.XmmsProxy.__init__(self, xmms), which is
    not in sync.py; it stores the client in self._xmms, the slot that
    __getattr__ and __dir__ read. *)
Definition XmmsProxy_init (xmms : value) : M unit :=
  fun s => (Return tt, {| lib := lib s; self_xmms := Some xmms; log := log s |}).

(** [XmmsSync.__init__(self, clientname, xmms)] *)
Definition __init__ (clientname xmms : value) : M unit :=
  xmms' <- (if is_None xmms then perform (OpXmms clientname) else ret xmms) ;;
  XmmsProxy_init xmms'.

(** [XmmsSync(clientname=None, xmms=None)]: an argument left out is None. *)
Definition XmmsSync_new (clientname xmms : option value) : M unit :=
  __init__ (match clientname with Some n => n | None => VNone end)
           (match xmms with Some x => x | None => VNone end).

(** The part of the closure [_] that follows [ret = attr( *args, **kwargs)]. *)
Definition unwrap_result (ret_ : value) : M value :=
  match ret_ with
  | VResult rid =>
      _ <- perform (OpWait rid) ;;
      err <- perform (OpIsError rid) ;;
      if truthy err
      then (e <- perform (OpGetError rid) ;; py_raise e)
      else perform (OpValue rid)
  | _ => ret ret_
  end.

(** [f( *args, **kwargs)].  A callable of the library answers through the
    library; calling the closure [_] runs its body, which calls the
    captured [attr] first. *)
Fixpoint py_call (f : value) (args : list value)
         (kwargs : list (string * value)) {struct f} : M value :=
  match f with
  | VFunc _ => perform (OpCall f args kwargs)
  | VSync attr _ _ =>
      ret_ <- py_call attr args kwargs ;;
      unwrap_result ret_
  | _ => raise_exc (VBuiltinExc "TypeError" "object is not callable")
  end.

(** A function object just defined by [def _( *args, **kwargs)]: no
    docstring, named [_]. *)
Definition def_sync (attr : value) : value := VSync attr VNone "_".

(** [_.__doc__ = attr.__doc__; _.func_name = '<sync version of %s>' % name]:
    the read of [attr.__doc__] is the step that can raise, and when it does
    the assignment of the name is not reached either. *)
Definition copy_metadata (attr : value) (name : string) (f : value) : M value :=
  d <- perform (OpDoc attr) ;;
  match f with
  | VSync a _ _ => ret (VSync a d ("<sync version of " ++ name ++ ">")%string)
  | _ => ret f
  end.

(** [XmmsSync.__getattr__(self, name)] *)
Definition __getattr__ (name : string) : M value :=
  try_except (perform (OpBaseGetattr name)) is_AttributeError
    (xmms <- get_xmms ;;
     attr <- perform (OpGetattr xmms name) ;;
     if has_call attr
     then try_pass (copy_metadata attr name (def_sync attr)) (def_sync attr)
     else ret attr).

(** The builtin [dir(o)], given the member listing of [o]: the listing has
    to be a list and comes back sorted. *)
Definition py_dir (listing : M value) : M value :=
  v <- listing ;;
  match v with
  | VList names => ret (VList (py_sorted names))
  | _ => raise_exc (VBuiltinExc "TypeError" "__dir__() must return a list")
  end.

(** [dir(o)] on an object of the library. *)
Definition dir_ext (o : value) : M value := py_dir (perform (OpDir o)).

(** [XmmsSync.__dir__(self)] *)
Definition __dir__ : M value :=
  xmms <- get_xmms ;;
  dir_ext xmms.

(** [dir(proxy)] *)
Definition proxy_dir : M value := py_dir __dir__.

(** [proxy.name]: ordinary lookup first (the instance's _xmms, then the
    classes), [__getattr__] only when that finds nothing. *)
Definition proxy_getattr (name : string) : M value :=
  if String.eqb name "_xmms" then get_xmms
  else match declared name with
       | Some v => ret v
       | None => __getattr__ name
       end.

(** [proxy.name( *args, **kwargs)]: the call of what [proxy.name] gave.  For
    a name that ordinary lookup does not find this is the forwarded call,
    the case the theorems are about; the methods that sync.py itself
    defines are code of the proxy, not callables of the library. *)
Definition proxy_invoke (name : string) (args : list value)
           (kwargs : list (string * value)) : M value :=
  f <- proxy_getattr name ;;
  py_call f args kwargs.

(** The library state after a sequence of requests, each answered by the
    library and nothing in between. *)
Fixpoint replay (ops : list ext_op) (l : state) : state :=
  match ops with
  | [] => l
  | op :: ops' => replay ops' (snd (xmmsapi op l))
  end.

End XmmsSync.

Arguments mkpy {state} lib self_xmms log.
Arguments lib {state} p.
Arguments self_xmms {state} p.
Arguments log {state} p.
Arguments ret {state A} a _.
Arguments raise_exc {state A} e _.
Arguments bind {state A B} m k _.
Arguments try_except {state A} body catches handler _.
Arguments try_pass {state A} body default _.
Arguments py_raise {state A} v _.
Arguments get_xmms {state} _.
Arguments XmmsProxy_init {state} xmms _.
Arguments perform {state} xmmsapi op _.
Arguments replay {state} xmmsapi ops l.
Arguments unwrap_result {state} xmmsapi ret_ _.
Arguments py_call {state} xmmsapi f args kwargs _.
Arguments copy_metadata {state} xmmsapi attr name f _.
Arguments __init__ {state} xmmsapi clientname xmms _.
Arguments XmmsSync_new {state} xmmsapi clientname xmms _.
Arguments __getattr__ {state} xmmsapi name _.
Arguments py_dir {state} listing _.
Arguments dir_ext {state} xmmsapi o _.
Arguments __dir__ {state} xmmsapi _.
Arguments proxy_dir {state} xmmsapi _.
Arguments proxy_getattr {state} xmmsapi declared name _.
Arguments proxy_invoke {state} xmmsapi declared name args kwargs _.

(** The closure [__getattr__] hands out for the callable [attr] found under
    [name], given how the read of [attr.__doc__] ended: with both pieces of
    metadata when the read returned, as [def] left it when the read raised. *)
Definition adapter_of (attr : value) (name : string) (d : outcome value) : value :=
  match d with
  | Return doc => VSync attr doc ("<sync version of " ++ name ++ ">")%string
  | Raise _ => def_sync attr
  end.

(** A computation that only forwards: whatever it does to the library state
    is what the library itself did in answering the requests the computation
    logged, and the [_xmms] slot is left as it was. *)
Definition forwards_only {state A}
           (xmmsapi : ext_op -> state -> outcome value * state)
           (m : M state A) : Prop :=
  forall s, exists ops,
    log (snd (m s)) = log s ++ ops /\
    lib (snd (m s)) = replay xmmsapi ops (lib s) /\
    self_xmms (snd (m s)) = self_xmms s.

(** ** A small client library to run the proxy on

    Modelled from the spec: the xmmsapi library is not in sync.py.  This one
    has the members of the spec's scenarios: [ping()] gives a deferred result
    that resolves to True, [broken()] one that resolves to the error
    ConnectionError("disconnected"), [version] is the plain attribute "2.0";
    [get_fd()] returns a plain integer at once.  A deferred result is pending
    until [wait()] and then resolved for good, to a value or to an error.
    The base class XmmsProxy declares no [__getattr__] of its own, and
    [Xmms(None)] takes the name "Unnamed Python Client", as the docstring of
    [XmmsSync.__init__] has it. *)
Module Demo.

Inductive resolution : Type :=
| Value (v : value)
| Error (e : value).

Inductive deferred : Type :=
| Pending (r : resolution)
| Resolved (r : resolution).

Record daemon : Type := mkdaemon {
  client_name : value;
  results : list deferred      (* the result with id rid is the rid-th *)
}.

Definition client : value := VObj 1.
Definition ping : value := VFunc 0.
Definition broken : value := VFunc 1.
Definition get_fd : value := VFunc 2.

Definition disconnected : value :=
  VExc 7 ["ConnectionError"; "OSError"; "Exception"; "BaseException"; "object"]
       "disconnected".
Definition no_attribute (name : string) : value :=
  VExc 9 ["AttributeError"; "StandardError"; "Exception"; "BaseException"; "object"]
       name.
Definition unresolved : value :=
  VExc 11 ["ValueError"; "StandardError"; "Exception"; "BaseException"; "object"]
       "result is not resolved".

Definition members : list (string * value) :=
  [("version", VStr "2.0"); ("ping", ping); ("broken", broken); ("get_fd", get_fd)].

Fixpoint lookup (name : string) (ms : list (string * value)) : option value :=
  match ms with
  | [] => None
  | (n, v) :: ms' => if String.eqb n name then Some v else lookup name ms'
  end.

Fixpoint resolve (rid : nat) (rs : list deferred) : list deferred :=
  match rs, rid with
  | [], _ => []
  | Pending r :: rs', O => Resolved r :: rs'
  | d :: rs', O => d :: rs'
  | d :: rs', S rid' => d :: resolve rid' rs'
  end.

Definition submit (r : resolution) (d : daemon) : outcome value * daemon :=
  (Return (VResult (length (results d))),
   {| client_name := client_name d; results := results d ++ [Pending r] |}).

Definition xmmsapi (op : ext_op) (d : daemon) : outcome value * daemon :=
  match op with
  | OpXmms n =>
      (Return client,
       {| client_name := if is_None n then VStr "Unnamed Python Client" else n;
          results := results d |})
  | OpBaseGetattr name => (Raise (no_attribute name), d)
  | OpGetattr (VObj 1) name =>
      match lookup name members with
      | Some v => (Return v, d)
      | None => (Raise (no_attribute name), d)
      end
  | OpGetattr _ name => (Raise (no_attribute name), d)
  | OpDir (VObj 1) => (Return (VList (map fst members)), d)
  | OpDir _ => (Return (VList []), d)
  | OpDoc (VFunc 0) => (Return (VStr "Ping the daemon."), d)
  | OpDoc (VFunc 2) => (Raise (no_attribute "__doc__"), d)
  | OpDoc _ => (Return VNone, d)
  | OpCall (VFunc 0) _ _ => submit (Value (VBool true)) d
  | OpCall (VFunc 1) _ _ => submit (Error disconnected) d
  | OpCall (VFunc 2) _ _ => (Return (VInt 3), d)
  | OpCall _ _ _ => (Raise (VBuiltinExc "TypeError" "object is not callable"), d)
  | OpWait rid =>
      (Return VNone,
       {| client_name := client_name d; results := resolve rid (results d) |})
  | OpIsError rid =>
      match nth_error (results d) rid with
      | Some (Resolved (Error _)) => (Return (VBool true), d)
      | Some (Resolved (Value _)) => (Return (VBool false), d)
      | _ => (Raise unresolved, d)
      end
  | OpGetError rid =>
      match nth_error (results d) rid with
      | Some (Resolved (Error e)) => (Return e, d)
      | _ => (Raise unresolved, d)
      end
  | OpValue rid =>
      match nth_error (results d) rid with
      | Some (Resolved (Value v)) => (Return v, d)
      | _ => (Raise unresolved, d)
      end
  end.

(** Ordinary lookup on the proxy finds the three methods sync.py defines
    and the class docstring, nothing else. *)
Definition declared (name : string) : option value :=
  if String.eqb name "__init__" then Some (VFunc 10)
  else if String.eqb name "__getattr__" then Some (VFunc 11)
  else if String.eqb name "__dir__" then Some (VFunc 12)
  else None.

Definition daemon0 : daemon := {| client_name := VNone; results := [] |}.

(** A proxy built around [client], nothing requested yet. *)
Definition proxy0 : pystate daemon :=
  {| lib := daemon0; self_xmms := Some client; log := [] |}.

(** A fresh instance, before [__init__]. *)
Definition fresh : pystate daemon :=
  {| lib := daemon0; self_xmms := None; log := [] |}.

End Demo.

(** The requests [proxy.name] makes when ordinary lookup and the base class
    find nothing and the client's member [f] is callable: the base lookup,
    the lookup on the client, the read of [f.__doc__]. *)
Definition adapter_lookup (x : value) (name : string) (f : value) : list ext_op :=
  [OpBaseGetattr name; OpGetattr x name; OpDoc f].

(** The requests an access to [name] makes, from library state [l] on a
    proxy around [x], when ordinary lookup did not find [name]: the base
    lookup; the lookup on the client, if the base raised an AttributeError;
    the read of the docstring of what that lookup returned, if it returned
    a callable. *)
Definition access_requests {state}
           (xmmsapi : ext_op -> state -> outcome value * state)
           (l : state) (x : value) (name : string) : list ext_op :=
  match xmmsapi (OpBaseGetattr name) l with
  | (Return _, _) => [OpBaseGetattr name]
  | (Raise e0, l1) =>
      if is_AttributeError e0
      then match xmmsapi (OpGetattr x name) l1 with
           | (Return attr, _) =>
               if has_call attr
               then [OpBaseGetattr name; OpGetattr x name; OpDoc attr]
               else [OpBaseGetattr name; OpGetattr x name]
           | (Raise _, _) => [OpBaseGetattr name; OpGetattr x name]
           end
      else [OpBaseGetattr name]
  end.

(** What a call of [f] ends up calling: the callable an adapter was built
    around, or [f] itself. *)
Fixpoint callee (f : value) : value :=
  match f with
  | VSync attr _ _ => callee attr
  | _ => f
  end.

(** The requests a call with [args] and [kwargs] may have made: none, or one
    call of [g] with just these arguments, first, and after it only
    requests on deferred results. *)
Definition call_requests (g : value) (args : list value)
           (kwargs : list (string * value)) (ops : list ext_op) : Prop :=
  ops = []
  \/ exists rest,
       ops = OpCall g args kwargs :: rest /\ forallb is_result_op rest = true.

(** ** A library that fails

    A second library to run the error paths on.  Its state counts the
    requests it has answered.  [Xmms] always raises.  The callable
    [VFunc 0] raises when called; any other [VFunc fid] returns the deferred
    result [fid].  Result 1 raises in [wait()], result 2 in [is_error()];
    result 3 reports an error and raises in the error accessor; result 4
    reports no error and raises in [value()]; result 5 reports an error and
    carries [carried].  The base class finds [preset], fails on [strict]
    with an exception that is no AttributeError, and for any other name
    raises an instance of a subclass of AttributeError; the client has the
    plain member [volume] and the callable member [play]. *)
Module Faulty.

Definition boom (oid : nat) : value :=
  VExc oid ["IOError"; "EnvironmentError"; "StandardError"; "Exception";
            "BaseException"; "object"]
       "connection lost".
Definition carried : value :=
  VExc 30 ["XmmsError"; "Exception"; "BaseException"; "object"] "no such song".

(** An instance of a class of the library that derives from AttributeError. *)
Definition missing (oid : nat) : value :=
  VExc oid ["MissingMember"; "AttributeError"; "StandardError"; "Exception";
            "BaseException"; "object"]
       "no such member".

Definition xmmsapi (op : ext_op) (n : nat) : outcome value * nat :=
  match op with
  | OpXmms _ => (Raise (boom 20), S n)
  | OpCall (VFunc 0) _ _ => (Raise (boom 21), S n)
  | OpCall (VFunc fid) _ _ => (Return (VResult fid), S n)
  | OpWait 1 => (Raise (boom 22), S n)
  | OpWait _ => (Return VNone, S n)
  | OpIsError 2 => (Raise (boom 23), S n)
  | OpIsError 3 => (Return (VBool true), S n)
  | OpIsError 5 => (Return (VBool true), S n)
  | OpIsError _ => (Return (VBool false), S n)
  | OpGetError 3 => (Raise (boom 24), S n)
  | OpGetError _ => (Return carried, S n)
  | OpValue 4 => (Raise (boom 26), S n)
  | OpValue _ => (Return (VInt 0), S n)
  | OpDir _ => (Return (VList ["wait"; "is_error"; "wait"]), S n)
  | OpBaseGetattr "preset" => (Return (VInt 5), S n)
  | OpBaseGetattr "strict" => (Raise (boom 27), S n)
  | OpBaseGetattr _ => (Raise (missing 28), S n)
  | OpGetattr _ "volume" => (Return (VInt 11), S n)
  | OpGetattr _ "play" => (Return (VFunc 5), S n)
  | _ => (Raise (missing 29), S n)
  end.

(** A proxy around the object 1 of this library, nothing requested yet. *)
Definition proxy0 : pystate nat :=
  {| lib := 0; self_xmms := Some (VObj 1); log := [] |}.

(** A fresh instance, before [__init__]. *)
Definition fresh : pystate nat :=
  {| lib := 0; self_xmms := None; log := [] |}.

End Faulty.

(** ** The spec's scenarios, run *)

Example ping_returns_True :
  fst (proxy_invoke Demo.xmmsapi Demo.declared "ping" [] [] Demo.proxy0)
  = Return (VBool true).
Proof. reflexivity. Qed.

Example broken_raises_disconnected :
  fst (proxy_invoke Demo.xmmsapi Demo.declared "broken" [] [] Demo.proxy0)
  = Raise Demo.disconnected.
Proof. reflexivity. Qed.

Example version_passthrough :
  fst (proxy_getattr Demo.xmmsapi Demo.declared "version" Demo.proxy0)
  = Return (VStr "2.0").
Proof. reflexivity. Qed.

Example dir_sorted :
  fst (proxy_dir Demo.xmmsapi Demo.proxy0)
  = Return (VList ["broken"; "get_fd"; "ping"; "version"]).
Proof. reflexivity. Qed.

(** ** Sorting of names *)

Lemma insert_name_perm (x : string) (l : list string) :
  Permutation (x :: l) (insert_name x l).
Proof.
  induction l as [|y l IH]; simpl.
  - apply Permutation_refl.
  - destruct (String.leb x y).
    + apply Permutation_refl.
    + apply perm_trans with (y :: x :: l).
      * apply perm_swap.
      * apply perm_skip, IH.
Qed.

Lemma py_sorted_perm (l : list string) : Permutation l (py_sorted l).
Proof.
  induction l as [|x l IH]; simpl.
  - apply perm_nil.
  - apply perm_trans with (x :: py_sorted l).
    + apply perm_skip, IH.
    + apply insert_name_perm.
Qed.

Lemma insert_name_sorted (x : string) (l : list string) :
  sorted_names l = true -> sorted_names (insert_name x l) = true.
Proof.
  induction l as [|y l IH]; intros Hs.
  - reflexivity.
  - simpl insert_name. destruct (String.leb x y) eqn:Hxy.
    + change (String.leb x y && sorted_names (y :: l) = true).
      now rewrite Hxy, Hs.
    + assert (Hyx : String.leb y x = true).
      { destruct (String.leb_total x y) as [H|H]; [congruence | exact H]. }
      destruct l as [|z l].
      * simpl. now rewrite Hyx.
      * simpl in Hs. apply andb_true_iff in Hs as [Hyz Hzl].
        specialize (IH Hzl). simpl insert_name in *.
        destruct (String.leb x z).
        -- change (String.leb y x && sorted_names (x :: z :: l) = true).
           now rewrite Hyx, IH.
        -- change (String.leb y z && sorted_names (z :: insert_name x l) = true).
           now rewrite Hyz, IH.
Qed.

Lemma py_sorted_sorted (l : list string) : sorted_names (py_sorted l) = true.
Proof.
  induction l as [|x l IH]; simpl.
  - reflexivity.
  - now apply insert_name_sorted.
Qed.

Lemma py_sorted_fixed (l : list string) :
  sorted_names l = true -> py_sorted l = l.
Proof.
  induction l as [|x l IH]; intros Hs.
  - reflexivity.
  - simpl. destruct l as [|y l].
    + reflexivity.
    + simpl in Hs. apply andb_true_iff in Hs as [Hxy Hyl].
      rewrite (IH Hyl). simpl. now rewrite Hxy.
Qed.

Lemma py_sorted_idempotent (l : list string) :
  py_sorted (py_sorted l) = py_sorted l.
Proof. apply py_sorted_fixed, py_sorted_sorted. Qed.

Lemma py_sorted_In (l : list string) (n : string) :
  In n (py_sorted l) <-> In n l.
Proof.
  split; apply Permutation_in.
  - apply Permutation_sym, py_sorted_perm.
  - apply py_sorted_perm.
Qed.

(** ** Running the monad *)

Section Running.

Context {state : Type}.
Variable xmmsapi : ext_op -> state -> outcome value * state.
Variable declared : string -> option value.

Lemma perform_eq (op : ext_op) (s : pystate state) r l' :
  xmmsapi op (lib s) = (r, l') ->
  perform xmmsapi op s = (r, mkpy l' (self_xmms s) (log s ++ [op])).
Proof. intros H. unfold perform. now rewrite H. Qed.

Lemma perform_mk (op : ext_op) (l : state) sx lg r l' :
  xmmsapi op l = (r, l') ->
  perform xmmsapi op (mkpy l sx lg) = (r, mkpy l' sx (lg ++ [op])).
Proof. intros H. unfold perform. simpl. now rewrite H. Qed.

Lemma bind_Return {A B} (m : M state A) (k : A -> M state B) s a s' :
  m s = (Return a, s') -> bind m k s = k a s'.
Proof. intros H. unfold bind. now rewrite H. Qed.

Lemma bind_Raise {A B} (m : M state A) (k : A -> M state B) s e s' :
  m s = (Raise e, s') -> bind m k s = (Raise e, s').
Proof. intros H. unfold bind. now rewrite H. Qed.

Lemma replay_app (ops1 ops2 : list ext_op) (l : state) :
  replay xmmsapi (ops1 ++ ops2) l = replay xmmsapi ops2 (replay xmmsapi ops1 l).
Proof.
  revert l. induction ops1 as [|op ops1 IH]; intros l; simpl.
  - reflexivity.
  - apply IH.
Qed.

(** *** Computations that only forward *)

Lemma fwd_ret {A} (a : A) : forwards_only xmmsapi (ret a).
Proof. intros s. exists []. simpl. now rewrite app_nil_r. Qed.

Lemma fwd_raise {A} (e : value) : forwards_only xmmsapi (@raise_exc state A e).
Proof. intros s. exists []. simpl. now rewrite app_nil_r. Qed.

Lemma fwd_py_raise {A} (v : value) : forwards_only xmmsapi (@py_raise state A v).
Proof. unfold py_raise. destruct (is_exception v); apply fwd_raise. Qed.

Lemma fwd_get_xmms : forwards_only xmmsapi get_xmms.
Proof.
  intros s. exists []. unfold get_xmms.
  destruct (self_xmms s) eqn:E; simpl; rewrite app_nil_r; auto.
Qed.

Lemma fwd_perform (op : ext_op) : forwards_only xmmsapi (perform xmmsapi op).
Proof.
  intros s. exists [op]. unfold perform.
  destruct (xmmsapi op (lib s)) as [r l'] eqn:H. simpl. now rewrite H.
Qed.

Lemma fwd_step (s s1 s2 : pystate state) (ops1 ops2 : list ext_op) :
  log s1 = log s ++ ops1 -> lib s1 = replay xmmsapi ops1 (lib s) ->
  self_xmms s1 = self_xmms s ->
  log s2 = log s1 ++ ops2 -> lib s2 = replay xmmsapi ops2 (lib s1) ->
  self_xmms s2 = self_xmms s1 ->
  log s2 = log s ++ (ops1 ++ ops2) /\
  lib s2 = replay xmmsapi (ops1 ++ ops2) (lib s) /\
  self_xmms s2 = self_xmms s.
Proof.
  intros H1 H2 H3 H4 H5 H6. repeat split.
  - now rewrite H4, H1, app_assoc.
  - now rewrite replay_app, H5, H2.
  - congruence.
Qed.

Lemma fwd_bind {A B} (m : M state A) (k : A -> M state B) :
  forwards_only xmmsapi m -> (forall a, forwards_only xmmsapi (k a)) ->
  forwards_only xmmsapi (bind m k).
Proof.
  intros Hm Hk s. destruct (Hm s) as (ops1 & H1 & H2 & H3).
  unfold bind. destruct (m s) as [[a|e] s1]; simpl in *.
  - destruct (Hk a s1) as (ops2 & H4 & H5 & H6).
    exists (ops1 ++ ops2). now apply fwd_step with s1.
  - exists ops1. auto.
Qed.

Lemma fwd_try_except {A} (body handler : M state A) (catches : value -> bool) :
  forwards_only xmmsapi body -> forwards_only xmmsapi handler ->
  forwards_only xmmsapi (try_except body catches handler).
Proof.
  intros Hb Hh s. destruct (Hb s) as (ops1 & H1 & H2 & H3).
  unfold try_except. destruct (body s) as [[a|e] s1]; simpl in *.
  - exists ops1. auto.
  - destruct (catches e).
    + destruct (Hh s1) as (ops2 & H4 & H5 & H6).
      exists (ops1 ++ ops2). now apply fwd_step with s1.
    + exists ops1. auto.
Qed.

Lemma fwd_try_pass {A} (body : M state A) (default : A) :
  forwards_only xmmsapi body -> forwards_only xmmsapi (try_pass body default).
Proof.
  intros Hb s. destruct (Hb s) as (ops1 & H1 & H2 & H3).
  unfold try_pass. destruct (body s) as [[a|e] s1]; simpl in *;
    exists ops1; auto.
Qed.

Lemma fwd_unwrap_result (v : value) :
  forwards_only xmmsapi (unwrap_result xmmsapi v).
Proof.
  destruct v; try apply fwd_ret. simpl.
  apply fwd_bind; [apply fwd_perform | intros _].
  apply fwd_bind; [apply fwd_perform | intros err].
  destruct (truthy err).
  - apply fwd_bind; [apply fwd_perform | intros e; apply fwd_py_raise].
  - apply fwd_perform.
Qed.

Lemma fwd_py_call (f : value) args kwargs :
  forwards_only xmmsapi (py_call xmmsapi f args kwargs).
Proof.
  induction f; simpl; try apply fwd_raise.
  - apply fwd_perform.
  - apply fwd_bind; [exact IHf1 | intros v; apply fwd_unwrap_result].
Qed.

Lemma fwd_getattr (name : string) :
  forwards_only xmmsapi (__getattr__ xmmsapi name).
Proof.
  unfold __getattr__. apply fwd_try_except; [apply fwd_perform|].
  apply fwd_bind; [apply fwd_get_xmms | intros x].
  apply fwd_bind; [apply fwd_perform | intros attr].
  destruct (has_call attr); [|apply fwd_ret].
  apply fwd_try_pass. unfold copy_metadata.
  apply fwd_bind; [apply fwd_perform | intros d]. apply fwd_ret.
Qed.

Lemma fwd_proxy_getattr (name : string) :
  forwards_only xmmsapi (proxy_getattr xmmsapi declared name).
Proof.
  unfold proxy_getattr. destruct (String.eqb name "_xmms").
  - apply fwd_get_xmms.
  - destruct (declared name); [apply fwd_ret | apply fwd_getattr].
Qed.

Lemma fwd_py_dir (listing : M state value) :
  forwards_only xmmsapi listing -> forwards_only xmmsapi (py_dir listing).
Proof.
  intros H. unfold py_dir. apply fwd_bind; [exact H | intros v].
  destruct v; try apply fwd_raise. apply fwd_ret.
Qed.

Lemma fwd_dir : forwards_only xmmsapi (__dir__ xmmsapi).
Proof.
  unfold __dir__. apply fwd_bind; [apply fwd_get_xmms | intros x].
  apply fwd_py_dir, fwd_perform.
Qed.

End Running.

(** ** Attribute access and forwarded calls *)

Section Lookup.

Context {state : Type}.
Variable xmmsapi : ext_op -> state -> outcome value * state.
Variable declared : string -> option value.

Lemma proxy_getattr_miss (name : string) (s : pystate state) :
  name <> "_xmms" -> declared name = None ->
  proxy_getattr xmmsapi declared name s = __getattr__ xmmsapi name s.
Proof.
  intros Hname Hdecl. unfold proxy_getattr.
  destruct (String.eqb_spec name "_xmms") as [E|_]; [contradiction|].
  now rewrite Hdecl.
Qed.

(** Once the base lookup has raised AttributeError, [__getattr__] goes by
    what the lookup on the client gives. *)
Lemma getattr_underlying s x name e0 l1 r l2 :
  self_xmms s = Some x ->
  xmmsapi (OpBaseGetattr name) (lib s) = (Raise e0, l1) ->
  is_AttributeError e0 = true ->
  xmmsapi (OpGetattr x name) l1 = (r, l2) ->
  __getattr__ xmmsapi name s =
  let s2 := mkpy l2 (Some x) (log s ++ [OpBaseGetattr name; OpGetattr x name]) in
  match r with
  | Return attr =>
      if has_call attr
      then try_pass (copy_metadata xmmsapi attr name (def_sync attr)) (def_sync attr) s2
      else (Return attr, s2)
  | Raise e => (Raise e, s2)
  end.
Proof.
  intros Hself Hbase Hattr Hget.
  unfold __getattr__, try_except.
  rewrite (perform_eq _ _ _ _ _ Hbase), Hattr.
  unfold bind, get_xmms. simpl. rewrite Hself.
  unfold perform. simpl. rewrite Hget.
  rewrite <- app_assoc. simpl.
  destruct r as [attr|e]; [destruct (has_call attr)|]; reflexivity.
Qed.

Lemma getattr_adapter s x name f e0 l1 l2 d l3 :
  self_xmms s = Some x ->
  xmmsapi (OpBaseGetattr name) (lib s) = (Raise e0, l1) ->
  is_AttributeError e0 = true ->
  xmmsapi (OpGetattr x name) l1 = (Return f, l2) ->
  has_call f = true ->
  xmmsapi (OpDoc f) l2 = (d, l3) ->
  __getattr__ xmmsapi name s =
  (Return (adapter_of f name d),
   mkpy l3 (Some x) (log s ++ adapter_lookup x name f)).
Proof.
  intros Hself Hbase Hattr Hget Hcall Hdoc.
  rewrite (getattr_underlying _ _ _ _ _ _ _ Hself Hbase Hattr Hget).
  simpl. rewrite Hcall.
  unfold try_pass, copy_metadata, bind, perform. simpl. rewrite Hdoc.
  rewrite <- app_assoc. simpl. destruct d; reflexivity.
Qed.

Lemma py_call_adapter_of f name d args kwargs (s : pystate state) :
  py_call xmmsapi (adapter_of f name d) args kwargs s =
  bind (py_call xmmsapi f args kwargs) (unwrap_result xmmsapi) s.
Proof. destruct d; reflexivity. Qed.

(** [proxy.op( *args, **kwargs)] for a callable member of the client, up to
    the point where the member has answered. *)
Lemma invoke_forwards s x op fid args kwargs e0 l1 l2 d l3 r l4 :
  self_xmms s = Some x ->
  op <> "_xmms" ->
  declared op = None ->
  xmmsapi (OpBaseGetattr op) (lib s) = (Raise e0, l1) ->
  is_AttributeError e0 = true ->
  xmmsapi (OpGetattr x op) l1 = (Return (VFunc fid), l2) ->
  xmmsapi (OpDoc (VFunc fid)) l2 = (d, l3) ->
  xmmsapi (OpCall (VFunc fid) args kwargs) l3 = (r, l4) ->
  proxy_invoke xmmsapi declared op args kwargs s =
  let s4 := mkpy l4 (Some x)
                 (log s ++ adapter_lookup x op (VFunc fid)
                        ++ [OpCall (VFunc fid) args kwargs]) in
  match r with
  | Return v => unwrap_result xmmsapi v s4
  | Raise e => (Raise e, s4)
  end.
Proof.
  intros Hself Hname Hdecl Hbase Hattr Hget Hdoc Hcall.
  unfold proxy_invoke.
  rewrite (bind_Return _ _ _ _ _
             (eq_trans (proxy_getattr_miss _ _ Hname Hdecl)
                       (getattr_adapter _ _ _ _ _ _ _ _ _
                          Hself Hbase Hattr Hget eq_refl Hdoc))).
  rewrite py_call_adapter_of. unfold bind. simpl.
  unfold perform. simpl. rewrite Hcall.
  rewrite <- app_assoc. destruct r; reflexivity.
Qed.

(** What [unwrap_result] does with a deferred result, once [wait()] and
    [is_error()] have returned. *)
Lemma unwrap_deferred (l0 : state) sx lg rid w l1 err l2 :
  xmmsapi (OpWait rid) l0 = (Return w, l1) ->
  xmmsapi (OpIsError rid) l1 = (Return err, l2) ->
  unwrap_result xmmsapi (VResult rid) (mkpy l0 sx lg) =
  let s2 := mkpy l2 sx (lg ++ [OpWait rid; OpIsError rid]) in
  if truthy err
  then bind (perform xmmsapi (OpGetError rid)) py_raise s2
  else perform xmmsapi (OpValue rid) s2.
Proof.
  intros Hwait Hiserr. simpl.
  rewrite (bind_Return _ _ _ _ _ (perform_mk _ _ _ _ _ _ _ Hwait)).
  rewrite (bind_Return _ _ _ _ _ (perform_mk _ _ _ _ _ _ _ Hiserr)).
  rewrite <- app_assoc. simpl. destruct (truthy err); reflexivity.
Qed.

End Lookup.

(** ** Calls forwarded through the sync adapter *)

Section Forwarded_call.

Context {state : Type}.
Variable xmmsapi : ext_op -> state -> outcome value * state.
Variable declared : string -> option value.

(** The proxy [s] holds the client [x]; [op] is a member that ordinary
    lookup and the base class do not have and that the client has as the
    callable [VFunc fid]; [args] and [kwargs] are what the caller passes. *)
Variables (s : pystate state) (x : value) (op : string) (fid : nat).
Variables (args : list value) (kwargs : list (string * value)).
Variables (e0 : value) (d : outcome value) (l1 l2 l3 l4 : state).

Hypothesis Hself : self_xmms s = Some x.
Hypothesis Hname : op <> "_xmms".
Hypothesis Hdecl : declared op = None.
Hypothesis Hbase : xmmsapi (OpBaseGetattr op) (lib s) = (Raise e0, l1).
Hypothesis Hattr : is_AttributeError e0 = true.
Hypothesis Hget : xmmsapi (OpGetattr x op) l1 = (Return (VFunc fid), l2).
Hypothesis Hdoc : xmmsapi (OpDoc (VFunc fid)) l2 = (d, l3).

(** C3: when the underlying operation returns a plain value [X], one that
    is not a deferred-result handle, [proxy.op( *args, **kwargs)] returns
    [X] itself, and none of wait, is_error, value or the error accessor is
    requested. *)
Theorem plain_return_passes_through (X : value) :
  xmmsapi (OpCall (VFunc fid) args kwargs) l3 = (Return X, l4) ->
  (forall rid, X <> VResult rid) ->
  proxy_invoke xmmsapi declared op args kwargs s =
  (Return X,
   mkpy l4 (Some x)
        (log s ++ adapter_lookup x op (VFunc fid)
               ++ [OpCall (VFunc fid) args kwargs]))
  /\ filter is_result_op
            (adapter_lookup x op (VFunc fid) ++ [OpCall (VFunc fid) args kwargs])
     = [].
Proof.
  intros Hcall Hplain. split; [|reflexivity].
  rewrite (invoke_forwards _ _ _ _ _ _ _ _ _ _ _ _ _ _ _
             Hself Hname Hdecl Hbase Hattr Hget Hdoc Hcall).
  simpl. destruct X; try reflexivity.
  now destruct (Hplain rid).
Qed.

Section Deferred.

(** The underlying operation returns the deferred result [rid]; [wait()]
    returns, and [is_error()] returns [err]. *)
Variables (rid : nat) (w err : value) (l5 l6 l7 : state).

Hypothesis Hcall :
  xmmsapi (OpCall (VFunc fid) args kwargs) l3 = (Return (VResult rid), l4).
Hypothesis Hwait : xmmsapi (OpWait rid) l4 = (Return w, l5).
Hypothesis Hiserr : xmmsapi (OpIsError rid) l5 = (Return err, l6).

(** C1: when the deferred result resolves without error to [V],
    [proxy.op( *args, **kwargs)] returns [V], and among the requests made
    there is exactly one call of the underlying operation, with exactly
    [args] and [kwargs]. *)
Theorem deferred_value_is_returned (V : value) :
  truthy err = false ->
  xmmsapi (OpValue rid) l6 = (Return V, l7) ->
  proxy_invoke xmmsapi declared op args kwargs s =
  (Return V,
   mkpy l7 (Some x)
        (log s ++ adapter_lookup x op (VFunc fid)
               ++ [OpCall (VFunc fid) args kwargs;
                   OpWait rid; OpIsError rid; OpValue rid]))
  /\ filter is_call
            (adapter_lookup x op (VFunc fid)
             ++ [OpCall (VFunc fid) args kwargs;
                 OpWait rid; OpIsError rid; OpValue rid])
     = [OpCall (VFunc fid) args kwargs].
Proof.
  intros Hfalsy Hvalue. split; [|reflexivity].
  rewrite (invoke_forwards _ _ _ _ _ _ _ _ _ _ _ _ _ _ _
             Hself Hname Hdecl Hbase Hattr Hget Hdoc Hcall).
  cbv beta iota zeta. rewrite (unwrap_deferred _ _ _ _ _ _ _ _ _ Hwait Hiserr).
  cbv zeta. rewrite Hfalsy.
  rewrite (perform_mk _ _ _ _ _ _ _ Hvalue). simpl.
  now rewrite <- !app_assoc.
Qed.



End Deferred.

End Forwarded_call.

(** ** The requests an operation makes *)

Section Requests.

Context {state : Type}.
Variable xmmsapi : ext_op -> state -> outcome value * state.

(** A computation that only forwards and whose new log entries are [ops]
    has played exactly [ops] on the library. *)
Lemma fwd_exact {A} (m : M state A) (s : pystate state) (ops : list ext_op) :
  forwards_only xmmsapi m ->
  log (snd (m s)) = log s ++ ops ->
  lib (snd (m s)) = replay xmmsapi ops (lib s)
  /\ self_xmms (snd (m s)) = self_xmms s.
Proof.
  intros Hm Hlog. destruct (Hm s) as (ops' & Hlog' & Hlib & Hslot).
  rewrite Hlog in Hlog'. apply app_inv_head in Hlog'. subst ops'. auto.
Qed.

Lemma unwrap_requests (v : value) (s : pystate state) :
  exists ops,
    log (snd (unwrap_result xmmsapi v s)) = log s ++ ops
    /\ forallb is_result_op ops = true.
Proof.
  destruct v; try (exists []; simpl; now rewrite app_nil_r).
  simpl. unfold bind at 1. unfold perform at 1.
  destruct (xmmsapi (OpWait rid) (lib s)) as [[w|e] l1].
  2:{ exists [OpWait rid]. auto. }
  unfold bind at 1. unfold perform at 1. simpl.
  destruct (xmmsapi (OpIsError rid) l1) as [[err|e] l2].
  2:{ exists [OpWait rid; OpIsError rid]. simpl. now rewrite <- app_assoc. }
  destruct (truthy err).
  - exists [OpWait rid; OpIsError rid; OpGetError rid]. split; [|reflexivity].
    unfold bind, perform. simpl.
    destruct (xmmsapi (OpGetError rid) l2) as [[e|e] l3]; simpl.
    + unfold py_raise. destruct (is_exception e); simpl;
        now rewrite <- !app_assoc.
    + now rewrite <- !app_assoc.
  - exists [OpWait rid; OpIsError rid; OpValue rid]. split; [|reflexivity].
    unfold perform. simpl.
    destruct (xmmsapi (OpValue rid) l2) as [r l3]; simpl.
    now rewrite <- !app_assoc.
Qed.

(** A call that made no request did not return. *)
Lemma py_call_requests_strong (f : value) args kwargs (st : pystate state) :
  exists ops,
    log (snd (py_call xmmsapi f args kwargs st)) = log st ++ ops
    /\ ((ops = [] /\ exists e, fst (py_call xmmsapi f args kwargs st) = Raise e)
        \/ exists rest,
             ops = OpCall (callee f) args kwargs :: rest
             /\ forallb is_result_op rest = true).
Proof.
  revert st.
  induction f; intros st;
    try (exists []; simpl; rewrite app_nil_r; split; [reflexivity|];
         left; split; [reflexivity|]; eexists; reflexivity).
  - exists [OpCall (VFunc fid) args kwargs]. split.
    + simpl. unfold perform.
      now destruct (xmmsapi (OpCall (VFunc fid) args kwargs) (lib st)).
    + right. now exists [].
  - destruct (IHf1 st) as (ops1 & Hlog1 & Hshape).
    simpl. unfold bind.
    destruct (py_call xmmsapi f1 args kwargs st) as [[v|e] s1]; simpl in *.
    + destruct Hshape as [(_ & e & He)|(rest & -> & Hrest)]; [discriminate|].
      destruct (unwrap_requests v s1) as (ops2 & Hlog2 & Hres).
      exists (OpCall (callee f1) args kwargs :: rest ++ ops2). split.
      * rewrite Hlog2, Hlog1, <- app_assoc. reflexivity.
      * right. exists (rest ++ ops2). split; [reflexivity|].
        rewrite forallb_app, Hrest, Hres. reflexivity.
    + exists ops1. split; [exact Hlog1|].
      destruct Hshape as [(-> & _)|Hcall].
      * left. split; [reflexivity|]. now exists e.
      * now right.
Qed.

Lemma py_call_requests (f : value) args kwargs (s : pystate state) :
  exists ops,
    log (snd (py_call xmmsapi f args kwargs s)) = log s ++ ops
    /\ call_requests (callee f) args kwargs ops.
Proof.
  destruct (py_call_requests_strong f args kwargs s)
    as (ops & Hlog & [(-> & _)|Hcall]).
  - exists []. split; [exact Hlog | now left].
  - exists ops. split; [exact Hlog | now right].
Qed.

Lemma getattr_requests (name : string) (s : pystate state) (x : value) :
  self_xmms s = Some x ->
  log (snd (__getattr__ xmmsapi name s))
  = log s ++ access_requests xmmsapi (lib s) x name.
Proof.
  intros Hself. unfold access_requests.
  destruct (xmmsapi (OpBaseGetattr name) (lib s)) as [[v|e] l1] eqn:Hbase.
  { unfold __getattr__, try_except.
    now rewrite (perform_eq _ _ _ _ _ Hbase). }
  destruct (is_AttributeError e) eqn:Hattr.
  2:{ unfold __getattr__, try_except.
      now rewrite (perform_eq _ _ _ _ _ Hbase), Hattr. }
  destruct (xmmsapi (OpGetattr x name) l1) as [[attr|e'] l2] eqn:Hget;
    rewrite (getattr_underlying _ _ _ _ _ _ _ _ Hself Hbase Hattr Hget);
    cbv beta iota zeta; [|reflexivity].
  destruct (has_call attr); [|reflexivity].
  unfold try_pass, copy_metadata, bind, perform. simpl.
  destruct (xmmsapi (OpDoc attr) l2) as [[dv|de] l3]; simpl;
    now rewrite <- !app_assoc.
Qed.

(** An access calls nothing and asks nothing of a deferred result. *)
Lemma access_requests_lookups_only (l : state) (x : value) (name : string) :
  filter is_call (access_requests xmmsapi l x name) = []
  /\ filter is_result_op (access_requests xmmsapi l x name) = [].
Proof.
  unfold access_requests.
  destruct (xmmsapi (OpBaseGetattr name) l) as [[v|e] l1]; [now split|].
  destruct (is_AttributeError e); [|now split].
  destruct (xmmsapi (OpGetattr x name) l1) as [[attr|e'] l2]; [|now split].
  destruct (has_call attr); now split.
Qed.

Lemma dir_requests (s : pystate state) (x : value) :
  self_xmms s = Some x ->
  log (snd (proxy_dir xmmsapi s)) = log s ++ [OpDir x].
Proof.
  intros Hself.
  unfold proxy_dir, __dir__, dir_ext, py_dir, bind, get_xmms, perform.
  rewrite Hself.
  destruct (xmmsapi (OpDir x) (lib s)) as [[v|e] l1]; simpl; [|reflexivity].
  destruct v; reflexivity.
Qed.

End Requests.

(** ** Attribute access *)

Section Attribute_access.

Context {state : Type}.
Variable xmmsapi : ext_op -> state -> outcome value * state.
Variable declared : string -> option value.

(** C4: a member [a] that ordinary lookup and the base class do not have
    and whose value [X] on the client has no [__call__] is handed to the
    caller as [X] itself; the only requests are the two lookups, so no
    adapter is built and nothing is waited for. *)
Theorem plain_attribute_passes_through
        (s : pystate state) (x : value) (a : string) (X e0 : value)
        (l1 l2 : state) :
  self_xmms s = Some x ->
  a <> "_xmms" ->
  declared a = None ->
  xmmsapi (OpBaseGetattr a) (lib s) = (Raise e0, l1) ->
  is_AttributeError e0 = true ->
  xmmsapi (OpGetattr x a) l1 = (Return X, l2) ->
  has_call X = false ->
  proxy_getattr xmmsapi declared a s =
  (Return X, mkpy l2 (Some x) (log s ++ [OpBaseGetattr a; OpGetattr x a])).
Proof.
  intros Hself Hname Hdecl Hbase Hattr Hget Hplain.
  rewrite (proxy_getattr_miss _ _ _ _ Hname Hdecl).
  rewrite (getattr_underlying _ _ _ _ _ _ _ _ Hself Hbase Hattr Hget).
  cbv beta iota zeta. now rewrite Hplain.
Qed.

(** C6: [proxy.name] goes through the chain in order.  What ordinary
    lookup finds is returned with no request made; otherwise the base
    class is asked, and what it returns, or any exception of it that
    [except AttributeError] does not catch, is the outcome, the client not
    being asked; only on an AttributeError of the base class (an instance of
    that class or of one derived from it) is the client asked.  What the
    client has is then handed out, as it is or wrapped in an adapter; and
    when the client's lookup raises [e] the access raises that same [e]. *)
Theorem lookup_chain (s : pystate state) (x : value) (name : string) :
  self_xmms s = Some x ->
  name <> "_xmms" ->
  (forall v, declared name = Some v ->
     proxy_getattr xmmsapi declared name s = (Return v, s))
  /\
  (declared name = None ->
     (forall v l1,
        xmmsapi (OpBaseGetattr name) (lib s) = (Return v, l1) ->
        proxy_getattr xmmsapi declared name s =
        (Return v, mkpy l1 (Some x) (log s ++ [OpBaseGetattr name])))
     /\
     (forall e l1,
        xmmsapi (OpBaseGetattr name) (lib s) = (Raise e, l1) ->
        is_AttributeError e = false ->
        proxy_getattr xmmsapi declared name s =
        (Raise e, mkpy l1 (Some x) (log s ++ [OpBaseGetattr name])))
     /\
     (forall e0 l1 e l2,
        xmmsapi (OpBaseGetattr name) (lib s) = (Raise e0, l1) ->
        is_AttributeError e0 = true ->
        xmmsapi (OpGetattr x name) l1 = (Raise e, l2) ->
        proxy_getattr xmmsapi declared name s =
        (Raise e,
         mkpy l2 (Some x) (log s ++ [OpBaseGetattr name; OpGetattr x name])))
     /\
     (forall e0 l1 attr l2,
        xmmsapi (OpBaseGetattr name) (lib s) = (Raise e0, l1) ->
        is_AttributeError e0 = true ->
        xmmsapi (OpGetattr x name) l1 = (Return attr, l2) ->
        has_call attr = false ->
        proxy_getattr xmmsapi declared name s =
        (Return attr,
         mkpy l2 (Some x) (log s ++ [OpBaseGetattr name; OpGetattr x name])))
     /\
     (forall e0 l1 attr l2 d l3,
        xmmsapi (OpBaseGetattr name) (lib s) = (Raise e0, l1) ->
        is_AttributeError e0 = true ->
        xmmsapi (OpGetattr x name) l1 = (Return attr, l2) ->
        has_call attr = true ->
        xmmsapi (OpDoc attr) l2 = (d, l3) ->
        proxy_getattr xmmsapi declared name s =
        (Return (adapter_of attr name d),
         mkpy l3 (Some x) (log s ++ adapter_lookup x name attr)))).
Proof.
  intros Hself Hname. split.
  - intros v Hdecl. unfold proxy_getattr.
    destruct (String.eqb_spec name "_xmms") as [E|_]; [contradiction|].
    now rewrite Hdecl.
  - intros Hdecl. rewrite (proxy_getattr_miss _ _ _ _ Hname Hdecl).
    repeat split.
    + intros v l1 Hbase. unfold __getattr__, try_except.
      rewrite (perform_eq _ _ _ _ _ Hbase). now rewrite Hself.
    + intros e l1 Hbase Hother. unfold __getattr__, try_except.
      rewrite (perform_eq _ _ _ _ _ Hbase), Hother. now rewrite Hself.
    + intros e0 l1 e l2 Hbase Hattr Hget.
      now rewrite (getattr_underlying _ _ _ _ _ _ _ _ Hself Hbase Hattr Hget).
    + intros e0 l1 attr l2 Hbase Hattr Hget Hplain.
      rewrite (getattr_underlying _ _ _ _ _ _ _ _ Hself Hbase Hattr Hget).
      cbv beta iota zeta. now rewrite Hplain.
    + intros e0 l1 attr l2 d l3 Hbase Hattr Hget Hcall Hdoc.
      exact (getattr_adapter _ _ _ _ _ _ _ _ _ _
               Hself Hbase Hattr Hget Hcall Hdoc).
Qed.

(** C8, as the code has it: for a callable member [f] of the client the
    access always returns an adapter around [f], however the read of
    [f.__doc__] ends.  When the read returns [doc] the adapter carries
    [doc] and the name [<sync version of NAME>]; when it raises, the
    exception is dropped and the adapter keeps no docstring and the name
    [_].  What a call of the adapter does is the same in both cases. *)
Theorem adapter_metadata_is_best_effort
        (s : pystate state) (x : value) (name : string) (f e0 : value)
        (d : outcome value) (l1 l2 l3 : state) :
  self_xmms s = Some x ->
  name <> "_xmms" ->
  declared name = None ->
  xmmsapi (OpBaseGetattr name) (lib s) = (Raise e0, l1) ->
  is_AttributeError e0 = true ->
  xmmsapi (OpGetattr x name) l1 = (Return f, l2) ->
  has_call f = true ->
  xmmsapi (OpDoc f) l2 = (d, l3) ->
  proxy_getattr xmmsapi declared name s =
  (Return (adapter_of f name d),
   mkpy l3 (Some x) (log s ++ adapter_lookup x name f))
  /\ (forall doc, d = Return doc ->
        adapter_of f name d
        = VSync f doc ("<sync version of " ++ name ++ ">")%string)
  /\ (forall e, d = Raise e -> adapter_of f name d = VSync f VNone "_")
  /\ (forall d' args kwargs s',
        py_call xmmsapi (adapter_of f name d) args kwargs s'
        = py_call xmmsapi (adapter_of f name d') args kwargs s').
Proof.
  intros Hself Hname Hdecl Hbase Hattr Hget Hcall Hdoc. repeat split.
  - rewrite (proxy_getattr_miss _ _ _ _ Hname Hdecl).
    exact (getattr_adapter _ _ _ _ _ _ _ _ _ _
             Hself Hbase Hattr Hget Hcall Hdoc).
  - now intros doc ->.
  - now intros e ->.
  - intros d' args kwargs s'. now rewrite !py_call_adapter_of.
Qed.

(** C5: [dir(proxy)] is [dir] of the client, outcome and state alike; in
    particular, when the client lists [names], [dir(proxy)] is a list of
    exactly those names. *)
Theorem dir_is_dir_of_client (s : pystate state) (x : value) :
  self_xmms s = Some x ->
  proxy_dir xmmsapi s = dir_ext xmmsapi x s
  /\ (forall names l',
        xmmsapi (OpDir x) (lib s) = (Return (VList names), l') ->
        exists listed,
          fst (proxy_dir xmmsapi s) = Return (VList listed)
          /\ forall n, In n listed <-> In n names).
Proof.
  intros Hself.
  assert (Hdir : __dir__ xmmsapi s = dir_ext xmmsapi x s).
  { unfold __dir__, bind, get_xmms. now rewrite Hself. }
  assert (Heq : proxy_dir xmmsapi s = dir_ext xmmsapi x s).
  { unfold proxy_dir, py_dir at 1. unfold bind at 1. rewrite Hdir.
    unfold dir_ext, py_dir, bind.
    destruct (perform xmmsapi (OpDir x) s) as [[v|e] s1]; [|reflexivity].
    destruct v; try reflexivity.
    unfold ret. now rewrite py_sorted_idempotent. }
  split; [exact Heq|].
  intros names l' Hlist. exists (py_sorted names). split.
  - rewrite Heq. unfold dir_ext, py_dir, bind.
    now rewrite (perform_eq _ _ _ _ _ Hlist).
  - intros n. apply py_sorted_In.
Qed.


(** C7: with a client supplied, construction stores that client, asks the
    library for nothing and does not look at the name; with no client, it
    stores the client that [xmmsapi.Xmms] builds from the name it was
    given, or from None when no name was given. *)
Theorem construction (s : pystate state) :
  (forall clientname c,
     is_None c = false ->
     XmmsSync_new xmmsapi clientname (Some c) s
     = (Return tt, mkpy (lib s) (Some c) (log s)))
  /\ (forall n c l',
        xmmsapi (OpXmms n) (lib s) = (Return c, l') ->
        XmmsSync_new xmmsapi (Some n) None s
        = (Return tt, mkpy l' (Some c) (log s ++ [OpXmms n])))
  /\ (forall c l',
        xmmsapi (OpXmms VNone) (lib s) = (Return c, l') ->
        XmmsSync_new xmmsapi None None s
        = (Return tt, mkpy l' (Some c) (log s ++ [OpXmms VNone]))).
Proof.
  repeat split.
  - intros clientname c Hc. unfold XmmsSync_new, __init__. now rewrite Hc.
  - intros n c l' H. unfold XmmsSync_new, __init__. simpl.
    now rewrite (bind_Return _ _ _ _ _ (perform_eq _ _ _ _ _ H)).
  - intros c l' H. unfold XmmsSync_new, __init__. simpl.
    now rewrite (bind_Return _ _ _ _ _ (perform_eq _ _ _ _ _ H)).
Qed.

End Attribute_access.

(** ** The theorems at work on the demo library *)

Lemma deferred_value_is_returned_witness :
  proxy_invoke Demo.xmmsapi Demo.declared "ping" [] [] Demo.proxy0 =
  (Return (VBool true),
   mkpy (Demo.mkdaemon VNone [Demo.Resolved (Demo.Value (VBool true))])
        (Some Demo.client)
        [OpBaseGetattr "ping"; OpGetattr Demo.client "ping"; OpDoc Demo.ping;
         OpCall Demo.ping [] []; OpWait 0; OpIsError 0; OpValue 0])
  /\ filter is_call
            [OpBaseGetattr "ping"; OpGetattr Demo.client "ping"; OpDoc Demo.ping;
             OpCall Demo.ping [] []; OpWait 0; OpIsError 0; OpValue 0]
     = [OpCall Demo.ping [] []].
Proof.
  apply (deferred_value_is_returned
           Demo.xmmsapi Demo.declared Demo.proxy0 Demo.client "ping" 0 [] []
           (Demo.no_attribute "ping") (Return (VStr "Ping the daemon."))
           Demo.daemon0 Demo.daemon0 Demo.daemon0
           (Demo.mkdaemon VNone [Demo.Pending (Demo.Value (VBool true))]))
    with (w := VNone) (err := VBool false)
         (l5 := Demo.mkdaemon VNone [Demo.Resolved (Demo.Value (VBool true))])
         (l6 := Demo.mkdaemon VNone [Demo.Resolved (Demo.Value (VBool true))]);
    try reflexivity; discriminate.
Defined.


Lemma plain_return_passes_through_witness :
  proxy_invoke Demo.xmmsapi Demo.declared "get_fd" [] [] Demo.proxy0 =
  (Return (VInt 3),
   mkpy Demo.daemon0 (Some Demo.client)
        [OpBaseGetattr "get_fd"; OpGetattr Demo.client "get_fd";
         OpDoc Demo.get_fd; OpCall Demo.get_fd [] []])
  /\ filter is_result_op
            [OpBaseGetattr "get_fd"; OpGetattr Demo.client "get_fd";
             OpDoc Demo.get_fd; OpCall Demo.get_fd [] []]
     = [].
Proof.
  apply (plain_return_passes_through
           Demo.xmmsapi Demo.declared Demo.proxy0 Demo.client "get_fd" 2 [] []
           (Demo.no_attribute "get_fd") (Raise (Demo.no_attribute "__doc__"))
           Demo.daemon0 Demo.daemon0 Demo.daemon0 Demo.daemon0);
    try reflexivity; discriminate.
Defined.


Lemma plain_attribute_passes_through_witness :
  proxy_getattr Demo.xmmsapi Demo.declared "version" Demo.proxy0 =
  (Return (VStr "2.0"),
   mkpy Demo.daemon0 (Some Demo.client)
        [OpBaseGetattr "version"; OpGetattr Demo.client "version"]).
Proof.
  apply (plain_attribute_passes_through
           Demo.xmmsapi Demo.declared Demo.proxy0 Demo.client "version"
           (VStr "2.0") (Demo.no_attribute "version") Demo.daemon0 Demo.daemon0);
    try reflexivity; discriminate.
Defined.

Lemma lookup_chain_witness :
  (proxy_getattr Demo.xmmsapi Demo.declared "nosuch" Demo.proxy0 =
   (Raise (Demo.no_attribute "nosuch"),
    mkpy Demo.daemon0 (Some Demo.client)
         [OpBaseGetattr "nosuch"; OpGetattr Demo.client "nosuch"]))
  /\
  (proxy_getattr Demo.xmmsapi Demo.declared "version" Demo.proxy0 =
   (Return (VStr "2.0"),
    mkpy Demo.daemon0 (Some Demo.client)
         [OpBaseGetattr "version"; OpGetattr Demo.client "version"]))
  /\
  (proxy_getattr Demo.xmmsapi Demo.declared "ping" Demo.proxy0 =
   (Return (VSync Demo.ping (VStr "Ping the daemon.") "<sync version of ping>"),
    mkpy Demo.daemon0 (Some Demo.client)
         [OpBaseGetattr "ping"; OpGetattr Demo.client "ping"; OpDoc Demo.ping]))
  /\
  (proxy_getattr Demo.xmmsapi Demo.declared "__dir__" Demo.proxy0 =
   (Return (VFunc 12), Demo.proxy0))
  /\
  (proxy_getattr Faulty.xmmsapi (fun _ => None) "preset" Faulty.proxy0 =
   (Return (VInt 5), mkpy 1 (Some (VObj 1)) [OpBaseGetattr "preset"]))
  /\
  (proxy_getattr Faulty.xmmsapi (fun _ => None) "strict" Faulty.proxy0 =
   (Raise (Faulty.boom 27), mkpy 1 (Some (VObj 1)) [OpBaseGetattr "strict"]))
  /\
  (proxy_getattr Faulty.xmmsapi (fun _ => None) "volume" Faulty.proxy0 =
   (Return (VInt 11),
    mkpy 2 (Some (VObj 1)) [OpBaseGetattr "volume"; OpGetattr (VObj 1) "volume"])).
Proof.
  pose proof (fun name =>
                lookup_chain Demo.xmmsapi Demo.declared Demo.proxy0
                             Demo.client name eq_refl) as Hdemo.
  pose proof (fun name =>
                lookup_chain Faulty.xmmsapi (fun _ => None) Faulty.proxy0
                             (VObj 1) name eq_refl) as Hfaulty.
  split; [|split; [|split; [|split; [|split; [|split]]]]].
  - destruct (Hdemo "nosuch") as [_ H]; [discriminate|].
    destruct (H eq_refl) as (_ & _ & Hnowhere & _).
    apply (Hnowhere (Demo.no_attribute "nosuch") Demo.daemon0); reflexivity.
  - destruct (Hdemo "version") as [_ H]; [discriminate|].
    destruct (H eq_refl) as (_ & _ & _ & Hplain & _).
    apply (Hplain (Demo.no_attribute "version") Demo.daemon0); reflexivity.
  - destruct (Hdemo "ping") as [_ H]; [discriminate|].
    destruct (H eq_refl) as (_ & _ & _ & _ & Hwrap).
    apply (Hwrap (Demo.no_attribute "ping") Demo.daemon0 Demo.ping
                 Demo.daemon0 (Return (VStr "Ping the daemon.")) Demo.daemon0);
      reflexivity.
  - destruct (Hdemo "__dir__") as [H _]; [discriminate|].
    apply H. reflexivity.
  - destruct (Hfaulty "preset") as [_ H]; [discriminate|].
    destruct (H eq_refl) as (Hbase & _).
    apply Hbase. reflexivity.
  - destruct (Hfaulty "strict") as [_ H]; [discriminate|].
    destruct (H eq_refl) as (_ & Hother & _).
    apply Hother; reflexivity.
  - destruct (Hfaulty "volume") as [_ H]; [discriminate|].
    destruct (H eq_refl) as (_ & _ & _ & Hplain & _).
    apply (Hplain (Faulty.missing 28) 1); reflexivity.
Defined.

Lemma adapter_metadata_is_best_effort_witness :
  proxy_getattr Demo.xmmsapi Demo.declared "get_fd" Demo.proxy0 =
  (Return (VSync Demo.get_fd VNone "_"),
   mkpy Demo.daemon0 (Some Demo.client)
        [OpBaseGetattr "get_fd"; OpGetattr Demo.client "get_fd";
         OpDoc Demo.get_fd]).
Proof.
  apply (adapter_metadata_is_best_effort
           Demo.xmmsapi Demo.declared Demo.proxy0 Demo.client "get_fd"
           Demo.get_fd (Demo.no_attribute "get_fd")
           (Raise (Demo.no_attribute "__doc__"))
           Demo.daemon0 Demo.daemon0 Demo.daemon0);
    try reflexivity; discriminate.
Defined.

Lemma dir_is_dir_of_client_witness :
  proxy_dir Demo.xmmsapi Demo.proxy0 = dir_ext Demo.xmmsapi Demo.client Demo.proxy0.
Proof.
  apply (dir_is_dir_of_client Demo.xmmsapi Demo.proxy0 Demo.client).
  reflexivity.
Defined.


Lemma construction_witness :
  XmmsSync_new Demo.xmmsapi (Some (VStr "jukebox")) (Some Demo.client) Demo.fresh
  = (Return tt, mkpy Demo.daemon0 (Some Demo.client) []).
Proof.
  apply (proj1 (construction Demo.xmmsapi Demo.fresh)). reflexivity.
Defined.

(** Built without a client and without a name, the proxy holds a client
    that [Xmms(None)] built, which in the demo library carries the default
    name of the docstring. *)
Example default_client_name :
  XmmsSync_new Demo.xmmsapi None None Demo.fresh
  = (Return tt,
     mkpy (Demo.mkdaemon (VStr "Unnamed Python Client") [])
          (Some Demo.client) [OpXmms VNone]).
Proof. reflexivity. Qed.

(** C8 as the spec words it does not hold: the adapter for [ping] is not
    named "a synchronous version of ping". *)
Lemma adapter_name_is_not_spec_wording :
  ~ (forall name attr doc func_name,
       fst (proxy_getattr Demo.xmmsapi Demo.declared name Demo.proxy0)
       = Return (VSync attr doc func_name) ->
       func_name = ("a synchronous version of " ++ name)%string).
Proof.
  intros H.
  specialize (H "ping" Demo.ping (VStr "Ping the daemon.")
                "<sync version of ping>" eq_refl).
  discriminate H.
Qed.

(** ** Error paths and edges of the adapter *)

Section Adapter_edges.

Context {state : Type}.
Variable xmmsapi : ext_op -> state -> outcome value * state.
Variable declared : string -> option value.

(** X1: whatever the library answers, a call of the adapter around a library
    callable starts with one call of that callable, with the caller's
    arguments, and goes on with at most [wait()], [is_error()] and one of
    the two accessors, in that order, on one and the same result; nothing is
    looked up and nothing is called a second time. *)
Theorem adapter_requests_shape
        (fid : nat) (doc : value) (nm : string)
        (args : list value) (kwargs : list (string * value))
        (s : pystate state) :
  exists rest,
    log (snd (py_call xmmsapi (VSync (VFunc fid) doc nm) args kwargs s))
    = log s ++ OpCall (VFunc fid) args kwargs :: rest
    /\ (rest = []
        \/ exists rid,
             rest = [OpWait rid]
             \/ rest = [OpWait rid; OpIsError rid]
             \/ rest = [OpWait rid; OpIsError rid; OpValue rid]
             \/ rest = [OpWait rid; OpIsError rid; OpGetError rid]).
Proof.
  simpl. unfold bind at 1. unfold perform at 1.
  destruct (xmmsapi (OpCall (VFunc fid) args kwargs) (lib s)) as [[v|e] l1].
  2:{ exists []. simpl. auto. }
  destruct v; try (exists []; simpl; auto; fail).
  simpl. unfold bind at 1. unfold perform at 1. simpl.
  destruct (xmmsapi (OpWait rid) l1) as [[w|e] l2].
  2:{ exists [OpWait rid]. simpl. rewrite <- app_assoc. split; eauto. }
  unfold bind at 1. unfold perform at 1. simpl.
  destruct (xmmsapi (OpIsError rid) l2) as [[err|e] l3].
  2:{ exists [OpWait rid; OpIsError rid]. simpl. rewrite <- !app_assoc.
      split; eauto. }
  destruct (truthy err).
  - exists [OpWait rid; OpIsError rid; OpGetError rid].
    split; [|eauto 6].
    unfold bind, perform. simpl.
    destruct (xmmsapi (OpGetError rid) l3) as [[e|e] l4]; simpl.
    + unfold py_raise. destruct (is_exception e); simpl;
        now rewrite <- !app_assoc.
    + now rewrite <- !app_assoc.
  - exists [OpWait rid; OpIsError rid; OpValue rid].
    split; [|eauto 6].
    unfold perform. simpl.
    destruct (xmmsapi (OpValue rid) l3) as [r l4]; simpl.
    now rewrite <- !app_assoc.
Qed.

(** X2: an exception raised by the underlying operation itself reaches the
    caller of the adapter as it is, and nothing is requested after the call. *)
Theorem call_exception_propagates
        (fid : nat) (doc : value) (nm : string)
        (args : list value) (kwargs : list (string * value))
        (l0 : state) (sx : option value) (lg : list ext_op)
        (e : value) (l1 : state) :
  xmmsapi (OpCall (VFunc fid) args kwargs) l0 = (Raise e, l1) ->
  py_call xmmsapi (VSync (VFunc fid) doc nm) args kwargs (mkpy l0 sx lg)
  = (Raise e, mkpy l1 sx (lg ++ [OpCall (VFunc fid) args kwargs])).
Proof.
  intros Hcall. simpl.
  now rewrite (bind_Raise _ _ _ _ _ (perform_mk _ _ _ _ _ _ _ Hcall)).
Qed.

(** X3: an exception raised by [wait()] reaches the caller as it is;
    [is_error()] and the accessors are not requested. *)
Theorem wait_exception_propagates
        (fid : nat) (doc : value) (nm : string)
        (args : list value) (kwargs : list (string * value))
        (l0 : state) (sx : option value) (lg : list ext_op)
        (rid : nat) (e : value) (l1 l2 : state) :
  xmmsapi (OpCall (VFunc fid) args kwargs) l0 = (Return (VResult rid), l1) ->
  xmmsapi (OpWait rid) l1 = (Raise e, l2) ->
  py_call xmmsapi (VSync (VFunc fid) doc nm) args kwargs (mkpy l0 sx lg)
  = (Raise e,
     mkpy l2 sx (lg ++ [OpCall (VFunc fid) args kwargs; OpWait rid])).
Proof.
  intros Hcall Hwait. simpl.
  rewrite (bind_Return _ _ _ _ _ (perform_mk _ _ _ _ _ _ _ Hcall)). simpl.
  rewrite (bind_Raise _ _ _ _ _ (perform_mk _ _ _ _ _ _ _ Hwait)).
  now rewrite <- app_assoc.
Qed.

(** X4: an exception raised by [is_error()] reaches the caller as it is;
    neither accessor is requested. *)
Theorem is_error_exception_propagates
        (fid : nat) (doc : value) (nm : string)
        (args : list value) (kwargs : list (string * value))
        (l0 : state) (sx : option value) (lg : list ext_op)
        (rid : nat) (w e : value) (l1 l2 l3 : state) :
  xmmsapi (OpCall (VFunc fid) args kwargs) l0 = (Return (VResult rid), l1) ->
  xmmsapi (OpWait rid) l1 = (Return w, l2) ->
  xmmsapi (OpIsError rid) l2 = (Raise e, l3) ->
  py_call xmmsapi (VSync (VFunc fid) doc nm) args kwargs (mkpy l0 sx lg)
  = (Raise e,
     mkpy l3 sx
          (lg ++ [OpCall (VFunc fid) args kwargs; OpWait rid; OpIsError rid])).
Proof.
  intros Hcall Hwait Hiserr. simpl.
  rewrite (bind_Return _ _ _ _ _ (perform_mk _ _ _ _ _ _ _ Hcall)). simpl.
  rewrite (bind_Return _ _ _ _ _ (perform_mk _ _ _ _ _ _ _ Hwait)).
  rewrite (bind_Raise _ _ _ _ _ (perform_mk _ _ _ _ _ _ _ Hiserr)).
  now rewrite <- !app_assoc.
Qed.


(** X6: when [xmmsapi.Xmms(clientname)] raises, construction raises the same
    exception and the base [__init__] is not reached: [_xmms] stays as it
    was. *)
Theorem construction_failure_propagates
        (clientname e : value) (s : pystate state) (l' : state) :
  xmmsapi (OpXmms clientname) (lib s) = (Raise e, l') ->
  __init__ xmmsapi clientname VNone s
  = (Raise e, mkpy l' (self_xmms s) (log s ++ [OpXmms clientname])).
Proof.
  intros H. unfold __init__. simpl.
  now rewrite (bind_Raise _ _ _ _ _ (perform_eq _ _ _ _ _ H)).
Qed.

(** X7: on a constructed proxy, attribute access, however it ends, makes no
    request at all when ordinary lookup finds the name, and otherwise the
    base lookup, then at most the lookup on the client, then at most the
    read of the docstring of what that lookup returned: it calls nothing
    and touches no deferred result.  [dir(proxy)] makes the one listing
    request on the client and no other. *)
Theorem access_calls_nothing (name : string) (s : pystate state) (x : value) :
  self_xmms s = Some x ->
  (name = "_xmms" \/ declared name <> None ->
   log (snd (proxy_getattr xmmsapi declared name s)) = log s)
  /\ (name <> "_xmms" -> declared name = None ->
      log (snd (proxy_getattr xmmsapi declared name s))
      = log s ++ access_requests xmmsapi (lib s) x name)
  /\ (filter is_call (access_requests xmmsapi (lib s) x name) = []
      /\ filter is_result_op (access_requests xmmsapi (lib s) x name) = []
      /\ length (access_requests xmmsapi (lib s) x name) <= 3)
  /\ log (snd (proxy_dir xmmsapi s)) = log s ++ [OpDir x].
Proof.
  intros Hself. split; [|split; [|split]].
  - intros Hfound. unfold proxy_getattr.
    destruct (String.eqb_spec name "_xmms") as [E|E].
    + unfold get_xmms. now rewrite Hself.
    + destruct Hfound as [H|H]; [contradiction|].
      destruct (declared name); [reflexivity | now destruct H].
  - intros Hname Hdecl. rewrite (proxy_getattr_miss _ _ _ _ Hname Hdecl).
    exact (getattr_requests xmmsapi name s x Hself).
  - destruct (access_requests_lookups_only xmmsapi (lib s) x name) as [Hc Hr].
    split; [exact Hc|]. split; [exact Hr|].
    unfold access_requests.
    destruct (xmmsapi (OpBaseGetattr name) (lib s)) as [[v|e] l1];
      [simpl; auto|].
    destruct (is_AttributeError e); [|simpl; auto].
    destruct (xmmsapi (OpGetattr x name) l1) as [[attr|e'] l2];
      [|simpl; auto].
    destruct (has_call attr); simpl; auto.
  - exact (dir_requests xmmsapi s x Hself).
Qed.

(** X8: construction and the read of [_xmms] round-trip: right after a
    construction that returned, [proxy._xmms] is the client that was
    supplied, or the one [Xmms] built, and the read asks the library for
    nothing. *)
Theorem constructed_proxy_holds_client (s : pystate state) :
  (forall clientname c,
     is_None c = false ->
     bind (XmmsSync_new xmmsapi clientname (Some c))
          (fun _ => proxy_getattr xmmsapi declared "_xmms") s
     = (Return c, mkpy (lib s) (Some c) (log s)))
  /\ (forall clientname c l',
        xmmsapi (OpXmms clientname) (lib s) = (Return c, l') ->
        bind (__init__ xmmsapi clientname VNone)
             (fun _ => proxy_getattr xmmsapi declared "_xmms") s
        = (Return c, mkpy l' (Some c) (log s ++ [OpXmms clientname]))).
Proof.
  split.
  - intros clientname c Hc. unfold XmmsSync_new, __init__. rewrite Hc.
    reflexivity.
  - intros clientname c l' H. unfold __init__. simpl.
    unfold bind at 1.
    now rewrite (bind_Return _ _ _ _ _ (perform_eq _ _ _ _ _ H)).
Qed.

(** X9: an adapter wrapped in a second adapter, as a proxy built around
    another proxy hands out, behaves as the inner adapter whenever the inner
    one does not return a deferred result: same outcome, same requests. *)
Theorem rewrapped_adapter_is_transparent
        (f d1 d2 : value) (n1 n2 : string)
        (args : list value) (kwargs : list (string * value))
        (s : pystate state) :
  (forall rid,
     fst (py_call xmmsapi (VSync f d1 n1) args kwargs s)
     <> Return (VResult rid)) ->
  py_call xmmsapi (VSync (VSync f d1 n1) d2 n2) args kwargs s
  = py_call xmmsapi (VSync f d1 n1) args kwargs s.
Proof.
  intros Hplain.
  change (py_call xmmsapi (VSync (VSync f d1 n1) d2 n2) args kwargs s)
    with (bind (py_call xmmsapi (VSync f d1 n1) args kwargs)
               (unwrap_result xmmsapi) s).
  unfold bind at 1.
  destruct (py_call xmmsapi (VSync f d1 n1) args kwargs s) as [[v|e] s1];
    [|reflexivity].
  destruct v; try reflexivity.
  now destruct (Hplain rid).
Qed.

(** X10: what [__dir__] returns for a client that lists [names] is those
    names, each as often as the client lists it, in sorted order. *)
Theorem dir_result_is_sorted
        (s : pystate state) (x : value) (names : list string) (l' : state) :
  self_xmms s = Some x ->
  xmmsapi (OpDir x) (lib s) = (Return (VList names), l') ->
  exists listed,
    __dir__ xmmsapi s
    = (Return (VList listed), mkpy l' (Some x) (log s ++ [OpDir x]))
    /\ Permutation names listed
    /\ sorted_names listed = true.
Proof.
  intros Hself Hlist. exists (py_sorted names). repeat split.
  - unfold __dir__, bind, get_xmms. rewrite Hself.
    unfold dir_ext, py_dir, bind.
    rewrite (perform_eq _ _ _ _ _ Hlist). now rewrite Hself.
  - apply py_sorted_perm.
  - apply py_sorted_sorted.
Qed.

End Adapter_edges.

(** ** The error paths on the failing library *)

Lemma call_exception_propagates_witness :
  py_call Faulty.xmmsapi (VSync (VFunc 0) VNone "_") [VInt 7] [] Faulty.proxy0
  = (Raise (Faulty.boom 21),
     mkpy 1 (Some (VObj 1)) [OpCall (VFunc 0) [VInt 7] []]).
Proof.
  apply (call_exception_propagates Faulty.xmmsapi 0 VNone "_" [VInt 7] []
                                   0 (Some (VObj 1)) []).
  reflexivity.
Defined.

Lemma wait_exception_propagates_witness :
  py_call Faulty.xmmsapi (VSync (VFunc 1) VNone "_") [] [] Faulty.proxy0
  = (Raise (Faulty.boom 22),
     mkpy 2 (Some (VObj 1)) [OpCall (VFunc 1) [] []; OpWait 1]).
Proof.
  apply (wait_exception_propagates Faulty.xmmsapi 1 VNone "_" [] []
                                   0 (Some (VObj 1)) [] 1 (Faulty.boom 22) 1 2);
    reflexivity.
Defined.

Lemma is_error_exception_propagates_witness :
  py_call Faulty.xmmsapi (VSync (VFunc 2) VNone "_") [] [] Faulty.proxy0
  = (Raise (Faulty.boom 23),
     mkpy 3 (Some (VObj 1)) [OpCall (VFunc 2) [] []; OpWait 2; OpIsError 2]).
Proof.
  apply (is_error_exception_propagates
           Faulty.xmmsapi 2 VNone "_" [] [] 0 (Some (VObj 1)) []
           2 VNone (Faulty.boom 23) 1 2 3);
    reflexivity.
Defined.


Lemma construction_failure_propagates_witness :
  __init__ Faulty.xmmsapi (VStr "jukebox") VNone Faulty.fresh
  = (Raise (Faulty.boom 20), mkpy 1 None [OpXmms (VStr "jukebox")]).
Proof.
  apply (construction_failure_propagates
           Faulty.xmmsapi (VStr "jukebox") (Faulty.boom 20) Faulty.fresh 1).
  reflexivity.
Defined.

Lemma access_calls_nothing_witness :
  log (snd (proxy_getattr Demo.xmmsapi Demo.declared "ping" Demo.proxy0))
  = [OpBaseGetattr "ping"; OpGetattr Demo.client "ping"; OpDoc Demo.ping]
  /\ log (snd (proxy_dir Demo.xmmsapi Demo.proxy0)) = [OpDir Demo.client].
Proof.
  destruct (access_calls_nothing Demo.xmmsapi Demo.declared "ping"
                                 Demo.proxy0 Demo.client eq_refl)
    as (_ & Haccess & _ & Hdir).
  split; [|exact Hdir].
  apply Haccess; [discriminate | reflexivity].
Defined.

Lemma constructed_proxy_holds_client_witness :
  bind (XmmsSync_new Demo.xmmsapi (Some (VStr "jukebox")) (Some Demo.client))
       (fun _ => proxy_getattr Demo.xmmsapi Demo.declared "_xmms") Demo.fresh
  = (Return Demo.client, mkpy Demo.daemon0 (Some Demo.client) [])
  /\
  bind (__init__ Demo.xmmsapi (VStr "jukebox") VNone)
       (fun _ => proxy_getattr Demo.xmmsapi Demo.declared "_xmms") Demo.fresh
  = (Return Demo.client,
     mkpy (Demo.mkdaemon (VStr "jukebox") []) (Some Demo.client)
          [OpXmms (VStr "jukebox")]).
Proof.
  split.
  - apply (proj1 (constructed_proxy_holds_client
                    Demo.xmmsapi Demo.declared Demo.fresh)).
    reflexivity.
  - apply (proj2 (constructed_proxy_holds_client
                    Demo.xmmsapi Demo.declared Demo.fresh)
                 (VStr "jukebox") Demo.client
                 (Demo.mkdaemon (VStr "jukebox") [])).
    reflexivity.
Defined.

Lemma rewrapped_adapter_is_transparent_witness :
  py_call Demo.xmmsapi
          (VSync (VSync Demo.ping VNone "_") VNone "_") [] [] Demo.proxy0
  = py_call Demo.xmmsapi (VSync Demo.ping VNone "_") [] [] Demo.proxy0.
Proof.
  apply (rewrapped_adapter_is_transparent
           Demo.xmmsapi Demo.ping VNone VNone "_" "_" [] [] Demo.proxy0).
  intros rid. discriminate.
Defined.

Lemma dir_result_is_sorted_witness :
  exists listed,
    __dir__ Faulty.xmmsapi Faulty.proxy0
    = (Return (VList listed), mkpy 1 (Some (VObj 1)) [OpDir (VObj 1)])
    /\ Permutation ["wait"; "is_error"; "wait"] listed
    /\ sorted_names listed = true.
Proof.
  apply (dir_result_is_sorted Faulty.xmmsapi Faulty.proxy0 (VObj 1)
                              ["wait"; "is_error"; "wait"] 1);
    reflexivity.
Defined.
